(** * Notifier: recipient selection, staged delivery and tag watches

    A shallow embedding of [custom_components/notifier/__init__.py]
    (class [NotifierManager]) and the properties of its routing engine.

    Layout:
    - [Py]: the Python values and builtins the manager relies on
      (event-data values, truthiness, [str], float comparison, [min]);
    - [Hass]: the part of the host platform the manager talks to
      (state store, subscriptions, service calls, spawned tasks);
    - [Notifier]: the manager itself, method by method, followed by the
      theorems.

    Handlers are modelled as running to completion once invoked: the
    interleaving of coroutines at [await] points is not part of the model. *)

From Stdlib Require Import Ascii QArith Lqa.
From stdpp Require Import gmap strings list fin_maps pretty.

Set Default Proof Using "Type".

(* ===================================================================== *)
(** ** Python values *)
(* ===================================================================== *)

Module Py.

(** Event data is a dict whose values are scalars, lists of flat dicts
    ([callback], [until]) or a flat dict ([action_data]). *)
Inductive scalar :=
  | SNone
  | SBool (b : bool)
  | SInt (z : Z)
  | SStr (s : string).

Inductive value :=
  | VS (s : scalar)
  | VList (l : list (gmap string scalar))
  | VDict (d : gmap string scalar).

Global Instance scalar_eq_dec : EqDecision scalar.
Proof. solve_decision. Defined.

Definition scalar_to_sum (s : scalar) : unit + bool + Z + string :=
  match s with
  | SNone => inl (inl (inl tt))
  | SBool b => inl (inl (inr b))
  | SInt z => inl (inr z)
  | SStr t => inr t
  end.

Definition scalar_of_sum (x : unit + bool + Z + string) : scalar :=
  match x with
  | inl (inl (inl _)) => SNone
  | inl (inl (inr b)) => SBool b
  | inl (inr z) => SInt z
  | inr t => SStr t
  end.

Global Instance scalar_countable : Countable scalar.
Proof.
  apply (inj_countable' scalar_to_sum scalar_of_sum).
  by intros [].
Defined.

(** [bool(x)] *)
Definition truthy_scalar (s : scalar) : bool :=
  match s with
  | SNone => false
  | SBool b => b
  | SInt z => negb (z =? 0)%Z
  | SStr t => negb (String.eqb t "")
  end.

Definition truthy (v : value) : bool :=
  match v with
  | VS s => truthy_scalar s
  | VList l => match l with [] => false | _ => true end
  | VDict d => negb (bool_decide (d = ∅))
  end.

(** [if x:] where [x] came out of [dict.get] *)
Definition truthy_opt (o : option value) : bool :=
  match o with Some v => truthy v | None => false end.

(** [str(x)] on what [dict.get] returns for a flat dict *)
Definition str (o : option scalar) : string :=
  match o with
  | None | Some SNone => "None"
  | Some (SBool true) => "True"
  | Some (SBool false) => "False"
  | Some (SInt z) => pretty z
  | Some (SStr t) => t
  end.

(** Dict keys: [True == 1] and [False == 0] hash alike. *)
Definition key (s : scalar) : scalar :=
  match s with
  | SBool b => SInt (if b then 1 else 0)
  | _ => s
  end.

Inductive exn :=
  | TypeError
  | AttributeError
  | ServiceError      (* whatever [hass.services.async_call] raises *)
  | RemoveError.      (* whatever an unsubscribe callable raises *)

Inductive result (A : Type) :=
  | Ok (a : A)
  | Raise (e : exn).
Arguments Ok {A} a.
Arguments Raise {A} e.

(** [for x in v: x.get(...)]: the dicts the loop body sees.  A non-empty
    string or dict yields strings, on which [.get] fails; [None], a bool or
    an int cannot be iterated at all. *)
Definition iter_dicts (v : value) : result (list (gmap string scalar)) :=
  match v with
  | VList l => Ok l
  | VS (SStr t) => if String.eqb t "" then Ok [] else Raise AttributeError
  | VDict d => if bool_decide (d = ∅) then Ok [] else Raise AttributeError
  | VS _ => Raise TypeError
  end.

(** *** Floats

    A float is a finite number, an infinity or NaN.  Finite values carry
    their exact rational value, and the one sum the manager computes
    ([minp + threshold]) is taken exactly: binary64 rounding of that sum is
    not modelled. *)
Inductive pyfloat :=
  | Fin (q : Q)
  | PInf
  | NInf
  | NaN.

Definition of_int (z : Z) : pyfloat := Fin (inject_Z z).

(** [a <= b] *)
Definition fle (a b : pyfloat) : bool :=
  match a, b with
  | NaN, _ | _, NaN => false
  | NInf, _ => true
  | _, PInf => true
  | Fin x, Fin y => Qle_bool x y
  | _, _ => false
  end.

(** [a < b] *)
Definition flt (a b : pyfloat) : bool :=
  match a, b with
  | NaN, _ | _, NaN => false
  | NInf, NInf => false
  | NInf, _ => true
  | PInf, _ => false
  | Fin _, PInf => true
  | Fin x, Fin y => negb (Qle_bool y x)
  | Fin _, NInf => false
  end.

(** [a > b] *)
Definition fgt (a b : pyfloat) : bool := flt b a.

(** [a + n] for an int [n] *)
Definition fadd_int (a : pyfloat) (n : Z) : pyfloat :=
  match a with
  | Fin x => Fin (x + inject_Z n)
  | _ => a
  end.

(** [min(l)] on a non-empty list: the first element is kept until a
    strictly smaller one shows up. *)
Definition min_from (m : pyfloat) (l : list pyfloat) : pyfloat :=
  fold_left (fun m y => if flt y m then y else m) l m.

Definition min (l : list pyfloat) : option pyfloat :=
  match l with
  | [] => None
  | x :: l' => Some (min_from x l')
  end.


(** A fragment of [float(s)] used to run examples: strings of at most 15
    digits (whose value a float holds exactly) and the literals [nan] and
    [inf].  Every string it accepts, Python accepts with the same value;
    the examples below feed it only such strings and the platform's
    [unknown], which [float] rejects. *)
Fixpoint digits_value (acc : Z) (s : string) : option Z :=
  match s with
  | EmptyString => Some acc
  | String c s' =>
      let n := Z.of_N (Ascii.N_of_ascii c) in
      if ((48 <=? n) && (n <=? 57))%Z
      then digits_value (10 * acc + (n - 48)) s'
      else None
  end.

Definition float_lit (s : string) : option pyfloat :=
  if String.eqb s "nan" then Some NaN
  else if String.eqb s "inf" then Some PInf
  else match s with
       | EmptyString => None
       | _ => if (String.length s <=? 15)%nat then of_int <$> digits_value 0 s
              else None
       end.

(** [svc.split("/", 1)] when ["/" in svc] *)
Fixpoint split_slash (s : string) : option (string * string) :=
  match s with
  | EmptyString => None
  | String c s' =>
      if Ascii.eqb c "/"%char then Some (EmptyString, s')
      else match split_slash s' with
           | Some (a, b) => Some (String c a, b)
           | None => None
           end
  end.

End Py.

(* ===================================================================== *)
(** ** The host platform *)
(* ===================================================================== *)

Module Hass.
Import Py.

Record ServiceCall := {
  sc_domain : string;
  sc_service : string;
  sc_data : gmap string value
}.

(** The manager's bound methods that get registered on the event bus. *)
Inductive Handler :=
  | HNotifierEvent
  | HDiscardEvent
  | HMobileAction.

(** The callables handed to [async_track_state_change]. *)
Inductive Action :=
  | AHomeStateChanged
  | AUntil (tag : value).

Inductive Subscription :=
  | BusListener (event_type : string) (h : Handler)
  | StateTracker (entity : scalar) (to_state : option string) (a : Action).

(** Coroutines handed to [asyncio.create_task]. *)
Inductive Task :=
  | TSendToPresent (data : gmap string value)
  | TUntilCallback (tag : value).

(** [subs] holds the live subscriptions, each under the handle whose
    unsubscribe callable was returned when it was made.  [call_raises n]
    tells whether the [n]-th service call of the session fails and
    [remove_raises h] whether unsubscribing handle [h] fails (the
    subscription then stays in place). *)
Record t := {
  states : gmap string string;
  subs : gmap nat Subscription;
  next_handle : nat;
  calls : list (ServiceCall * bool);
  tasks : list Task;
  call_raises : nat → bool;
  remove_raises : nat → bool
}.

Definition set_subs (f : gmap nat Subscription → gmap nat Subscription) (h : t) : t :=
  {| states := states h; subs := f (subs h); next_handle := next_handle h;
     calls := calls h; tasks := tasks h;
     call_raises := call_raises h; remove_raises := remove_raises h |}.

Definition set_states (s : gmap string string) (h : t) : t :=
  {| states := s; subs := subs h; next_handle := next_handle h;
     calls := calls h; tasks := tasks h;
     call_raises := call_raises h; remove_raises := remove_raises h |}.

(** Registers a subscription and returns its handle. *)
Definition subscribe (s : Subscription) (h : t) : nat * t :=
  (next_handle h,
   {| states := states h; subs := <[next_handle h := s]> (subs h);
      next_handle := S (next_handle h);
      calls := calls h; tasks := tasks h;
      call_raises := call_raises h; remove_raises := remove_raises h |}).

(** [hass.bus.async_listen(event_type, handler)] *)
Definition async_listen (event_type : string) (f : Handler) : t → nat * t :=
  subscribe (BusListener event_type f).

(** [event_helper.async_track_state_change(hass, entity, action, to_state=..)] *)
Definition async_track_state_change
    (entity : scalar) (a : Action) (to_state : option string) : t → nat * t :=
  subscribe (StateTracker entity to_state a).

(** Calling the unsubscribe callable of handle [r]. *)
Definition remove (r : nat) (h : t) : result unit * t :=
  if remove_raises h r then (Raise RemoveError, h)
  else (Ok tt, set_subs (delete r) h).

(** [hass.services.async_call(domain, service, data, blocking=True)]: the
    call is logged with its outcome. *)
Definition async_call (domain service : string) (data : gmap string value)
    (h : t) : result unit * t :=
  let failed := call_raises h (length (calls h)) in
  let c := {| sc_domain := domain; sc_service := service; sc_data := data |} in
  (if failed then Raise ServiceError else Ok tt,
   {| states := states h; subs := subs h; next_handle := next_handle h;
      calls := calls h ++ [(c, negb failed)]; tasks := tasks h;
      call_raises := call_raises h; remove_raises := remove_raises h |}).

(** [asyncio.create_task(coro)] *)
Definition create_task (k : Task) (h : t) : t :=
  {| states := states h; subs := subs h; next_handle := next_handle h;
     calls := calls h; tasks := tasks h ++ [k];
     call_raises := call_raises h; remove_raises := remove_raises h |}.

(** A platform with nothing registered, on which nothing fails. *)
Definition init (s : gmap string string) : t :=
  {| states := s; subs := ∅; next_handle := 0; calls := []; tasks := [];
     call_raises := λ _, false; remove_raises := λ _, false |}.

End Hass.

(* ===================================================================== *)
(** ** The manager *)
(* ===================================================================== *)

Module Person.
(** One entry of [self.persons]. *)
Record t := {
  name : string;
  id : string;
  proximity_id : string;
  notification_service : option string
}.
End Person.

Module Notifier.
Import Py.

Record Manager := {
  home_sensor : string;
  threshold : Z;
  persons : list Person.t;
  staged : list (gmap string value);
  watchers : gmap scalar nat;   (* tag -> remove_callback *)
  _listeners : list nat
}.

Definition set_staged (q : list (gmap string value)) (m : Manager) : Manager :=
  {| home_sensor := home_sensor m; threshold := threshold m; persons := persons m;
     staged := q; watchers := watchers m; _listeners := _listeners m |}.

Definition set_watchers (w : gmap scalar nat) (m : Manager) : Manager :=
  {| home_sensor := home_sensor m; threshold := threshold m; persons := persons m;
     staged := staged m; watchers := w; _listeners := _listeners m |}.

Definition set_listeners (l : list nat) (m : Manager) : Manager :=
  {| home_sensor := home_sensor m; threshold := threshold m; persons := persons m;
     staged := staged m; watchers := watchers m; _listeners := l |}.

Definition set_threshold (t : Z) (m : Manager) : Manager :=
  {| home_sensor := home_sensor m; threshold := t; persons := persons m;
     staged := staged m; watchers := watchers m; _listeners := _listeners m |}.

(** [NotifierManager(hass, entry_id, home_sensor, threshold, persons)] *)
Definition __init__ (sensor : string) (thr : Z) (ps : list Person.t) : Manager :=
  {| home_sensor := sensor; threshold := thr; persons := ps;
     staged := []; watchers := ∅; _listeners := [] |}.

(** *** Computations over the manager and the platform *)

Definition St : Type := Manager * Hass.t.
Definition M (A : Type) : Type := St → result A * St.

Definition ret {A} (a : A) : M A := λ st, (Ok a, st).

Definition bind {A B} (c : M A) (k : A → M B) : M B :=
  λ st, match c st with
        | (Ok a, st') => k a st'
        | (Raise e, st') => (Raise e, st')
        end.

Definition raise {A} (e : exn) : M A := λ st, (Raise e, st).

(** [try: c  except Exception: handler] *)
Definition try_except (c : M unit) (handler : exn → M unit) : M unit :=
  λ st, match c st with
        | (Ok a, st') => (Ok a, st')
        | (Raise e, st') => handler e st'
        end.

Definition gets {A} (f : Manager → A) : M A := λ st, (Ok (f st.1), st).
Definition modify (f : Manager → Manager) : M unit := λ st, (Ok tt, (f st.1, st.2)).
Definition hass_gets {A} (f : Hass.t → A) : M A := λ st, (Ok (f st.2), st).
Definition hass_do {A} (f : Hass.t → A * Hass.t) : M A :=
  λ st, let (a, h) := f st.2 in (Ok a, (st.1, h)).
Definition hass_try (f : Hass.t → result unit * Hass.t) : M unit :=
  λ st, let (r, h) := f st.2 in (r, (st.1, h)).
Definition lift {A} (r : result A) : M A := λ st, (r, st).

Notation "'let*' x ':=' c 'in' k" := (bind c (λ x, k))
  (at level 10, x name, c at level 100, k at level 200).
Notation "c ';;' k" := (bind c (λ _, k))
  (at level 100, k at level 200, right associativity).

(** [for x in l: body(x)] over a list that the body does not mutate *)
Fixpoint for_ {A} (l : list A) (body : A → M unit) : M unit :=
  match l with
  | [] => ret tt
  | x :: l' => body x;; for_ l' body
  end.

Definition pass : M unit := ret tt.

(** A computation leaves the manager and the state store alone. *)
Definition frames (c : M unit) : Prop :=
  ∀ st, (c st).2.1 = st.1 ∧ Hass.states (c st).2.2 = Hass.states st.2.

Section Manager.

(** The builtin [float] on state strings: [None] when it raises. *)
Variable py_float : string → option pyfloat.

(** [_safe_float(value)] *)
Definition _safe_float (value : string) : pyfloat :=
  match py_float value with
  | Some x => x
  | None => of_int 9999
  end.

(** [state.state == "home" if state else False], with
    [state = hass.states.get(p.get("id"))] *)
Definition home_of (states : gmap string string) (p : Person.t) : bool :=
  match states !! Person.id p with
  | Some s => String.eqb s "home"
  | None => false
  end.

(** [self._safe_float(prox_state.state) if prox_state else 9999], with
    [prox_state = hass.states.get(p.get("proximity_id"))] *)
Definition prox_of (states : gmap string string) (p : Person.t) : pyfloat :=
  match states !! Person.proximity_id p with
  | Some s => _safe_float s
  | None => of_int 9999
  end.


(** [_call_notify_service(service, data, domain)] *)
Definition _call_notify_service
    (service : string) (data : gmap string value) (domain : string) : M unit :=
  try_except (hass_try (Hass.async_call domain service data)) (λ _, pass).

(** [_build_payload(data)] *)
Definition _build_payload (data : gmap string value) : result (gmap string value) :=
  let payload : gmap string value := ∅ in
  match
    match data !! "callback" with
    | Some v =>
        match iter_dicts v with
        | Ok cbs =>
            Ok (<["actions" :=
                  VList ((λ cb : gmap string scalar,
                            {[ "action" := default SNone (cb !! "event");
                               "title" := default SNone (cb !! "title") ]}) <$> cbs)]>
                  payload)
        | Raise e => Raise e
        end
    | None => Ok payload
    end
  with
  | Raise e => Raise e
  | Ok payload =>
      let payload :=
        match data !! "tag" with
        | Some v => <["tag" := v]> payload | None => payload end in
      let payload :=
        match data !! "image_url" with
        | Some v => <["image" := v]> payload | None => payload end in
      let payload :=
        match data !! "click_url" with
        | Some v => <["clickAction" := v]> payload | None => payload end in
      let payload :=
        match data !! "color" with
        | Some v => <["color" := v]> payload | None => payload end in
      Ok payload
  end.

(** [domain, service] of a non-empty [notification_service] *)
Definition domain_service (svc : string) : string * string :=
  match split_slash svc with
  | Some ds => ds
  | None => ("notify", svc)
  end.

(** [{"title": data.get("title", ""), "message": data.get("message", ""), **payload}] *)
Definition notify_data (data payload : gmap string value) : gmap string value :=
  payload ∪ {[ "title" := default (VS (SStr "")) (data !! "title");
               "message" := default (VS (SStr "")) (data !! "message") ]}.

(** [_send_to_person(data, person)] *)
Definition _send_to_person (data : gmap string value) (person : Person.t) : M unit :=
  match Person.notification_service person with
  | None => ret tt
  | Some svc =>
      if String.eqb svc "" then ret tt
      else
        let '(domain, service) := domain_service svc in
        let* payload := lift (_build_payload data) in
        _call_notify_service service (notify_data data payload) domain
  end.

(** [_send_to_all(data)] *)
Definition _send_to_all (data : gmap string value) : M unit :=
  let* ps := gets persons in
  for_ ps (λ p, _send_to_person data p).

(** [_send_to_present(data)] *)
Definition _send_to_present (data : gmap string value) : M unit :=
  let* ps := gets persons in
  for_ ps (λ p,
    let* states := hass_gets Hass.states in
    let home := home_of states p in
    let prox := prox_of states p in
    let* thr := gets threshold in
    if home || fle prox (of_int thr) then _send_to_person data p else ret tt).

(** [_send_to_absent(data)] *)
Definition _send_to_absent (data : gmap string value) : M unit :=
  let* ps := gets persons in
  for_ ps (λ p,
    let* states := hass_gets Hass.states in
    let home := home_of states p in
    let prox := prox_of states p in
    let* thr := gets threshold in
    if negb home || fgt prox (of_int thr) then _send_to_person data p else ret tt).

(** [_send_to_nearest(data)] *)
Definition _send_to_nearest (data : gmap string value) : M unit :=
  let* ps := gets persons in
  let* states := hass_gets Hass.states in
  let proximities := prox_of states <$> ps in
  match Py.min proximities with
  | None => ret tt
  | Some minp =>
      for_ ps (λ p,
        let* states := hass_gets Hass.states in
        let prox := prox_of states p in
        let* thr := gets threshold in
        if fle prox (fadd_int minp thr) then _send_to_person data p else ret tt)
  end.

(** [_send_when_present(data)] *)
Definition _send_when_present (data : gmap string value) : M unit :=
  let* sensor := gets home_sensor in
  let* home_state := hass_gets (λ h, Hass.states h !! sensor) in
  if match home_state with Some s => String.eqb s "on" | None => false end
  then _send_to_present data
  else modify (λ m, set_staged (staged m ++ [data]) m).

(** [_clear_notifications(tag)] *)
Definition _clear_notifications (tag : value) : M unit :=
  let* ps := gets persons in
  for_ ps (λ p,
    match Person.notification_service p with
    | None => ret tt
    | Some svc =>
        if String.eqb svc "" then ret tt
        else
          let '(domain, service) := domain_service svc in
          _call_notify_service service
            {[ "message" := VS (SStr "clear_notification") ]} domain
    end);;
  match tag with
  | VS s =>
      let* remove := gets (λ m, watchers m !! key s) in
      modify (λ m, set_watchers (delete (key s) (watchers m)) m);;
      match remove with
      | Some r => try_except (hass_try (Hass.remove r)) (λ _, pass)
      | None => ret tt
      end
  | _ => raise TypeError     (* unhashable key in [self.watchers.pop] *)
  end.

(** [_until_callback(entity, old, new, tag)] *)
Definition _until_callback (tag : value) : M unit :=
  _clear_notifications tag.


(** [_handle_mobile_action(event)], on [event.data or {}] *)
Definition _handle_mobile_action (data : gmap string value) : M unit :=
  let* tag :=
    if truthy_opt (data !! "tag") then ret (data !! "tag")
    else match data !! "action_data" with
         | None => ret None
         | Some (VDict d) => ret (VS <$> d !! "tag")
         | Some _ => raise AttributeError
         end in
  match tag with
  | Some tag => if truthy tag then _clear_notifications tag else ret tt
  | None => ret tt
  end.

(** [action[len("send_to_"):]] *)
Fixpoint drop_chars (n : nat) (s : string) : string :=
  match n, s with
  | S n', String _ s' => drop_chars n' s'
  | _, _ => s
  end.

(** [_handle_notifier_event(event)], on [event.data or {}] *)
Definition _handle_notifier_event (data : gmap string value) : M unit :=
  let action := data !! "action" in
  let tag := data !! "tag" in
  (if truthy_opt action then
     match action with
     | Some (VS (SStr a)) =>
         if String.eqb a "send_to_all" then _send_to_all data
         else if String.eqb a "send_to_present" then _send_to_present data
         else if String.eqb a "send_to_absent" then _send_to_absent data
         else if String.eqb a "send_to_nearest" then _send_to_nearest data
         else if String.eqb a "send_when_present" then _send_when_present data
         else if String.prefix "send_to_" a then
           let name := drop_chars (String.length "send_to_") a in
           let* ps := gets persons in
           for_ ps (λ p,
             if String.eqb (Person.name p) name then _send_to_person data p
             else ret tt)
         else ret tt
     | _ => raise AttributeError   (* [startswith] on a non-string *)
     end
   else ret tt);;
  (if truthy_opt (data !! "persistent") then
     _call_notify_service "persistent_notification"
       {[ "title" := default (VS (SStr "")) (data !! "title");
          "message" := default (VS (SStr "")) (data !! "message") ]} "notify"
   else ret tt);;
  (* watchers "until" *)
  match data !! "until", tag with
  | Some until, Some tag =>
      if truthy tag then
        let* ws := lift (iter_dicts until) in
        for_ ws (λ watcher,
          let entity_id := default SNone (watcher !! "entity_id") in
          let new_state := str (watcher !! "new_state") in
          let* remove :=
            hass_do (Hass.async_track_state_change
                       entity_id (Hass.AUntil tag) (Some new_state)) in
          match tag with
          | VS s => modify (λ m, set_watchers (<[key s := remove]> (watchers m)) m)
          | _ => raise TypeError   (* unhashable key *)
          end)
      else ret tt
  | _, _ => ret tt
  end.

(** [async_start()] *)
Definition async_start : M unit :=
  hass_do (Hass.async_listen "NOTIFIER" Hass.HNotifierEvent);;
  hass_do (Hass.async_listen "NOTIFIER_DISCARD" Hass.HDiscardEvent);;
  hass_do (Hass.async_listen "mobile_app_notification_action" Hass.HMobileAction);;
  (* Track home occupancy changes *)
  let* sensor := gets home_sensor in
  let* remove :=
    hass_do (Hass.async_track_state_change
               (SStr sensor) Hass.AHomeStateChanged None) in
  modify (λ m, set_listeners (_listeners m ++ [remove]) m).

(** [try: remove()  except Exception: pass] *)
Definition try_remove (remove : nat) : M unit :=
  try_except (hass_try (Hass.remove remove)) (λ _, pass).

(** [async_stop()].  The watchers are visited in the order of
    [map_to_list]; each visit only touches its own handle and lets no
    exception out, so the order has no bearing on the outcome. *)
Definition async_stop : M unit :=
  let* ls := gets _listeners in
  for_ ls try_remove;;
  modify (set_listeners []);;
  let* ws := gets (λ m, map_to_list (watchers m)) in
  for_ ws (λ '(tag, remove), try_remove remove);;
  modify (set_watchers ∅).

(** One turn of [while self.staged: data = self.staged.pop(0);
    asyncio.create_task(self._send_to_present(data))]; [None] when the loop
    condition is false. *)
Definition drain_step (st : St) : option St :=
  match staged st.1 with
  | [] => None
  | data :: rest =>
      let st := (set_staged rest st.1, st.2) in
      Some (st.1, Hass.create_task (Hass.TSendToPresent data) st.2)
  end.

(** The [while] loop; [None] when [fuel] turns do not finish it. *)
Fixpoint while_staged (fuel : nat) (st : St) : option (result unit * St) :=
  match drain_step st with
  | None => Some (Ok tt, st)
  | Some st' =>
      match fuel with
      | O => None
      | S fuel' => while_staged fuel' st'
      end
  end.

(** [_home_state_changed(entity, old, new)]; [new] is what the platform
    hands to the callback. *)
Definition _home_state_changed (fuel : nat) (new : string) (st : St)
    : option (result unit * St) :=
  if String.eqb new "on" && match staged st.1 with [] => false | _ => true end
  then while_staged fuel st
  else Some (Ok tt, st).

(** Running a coroutine that was handed to [create_task]. *)
Definition run_task (k : Hass.Task) : M unit :=
  match k with
  | Hass.TSendToPresent data => _send_to_present data
  | Hass.TUntilCallback tag => _until_callback tag
  end.

(** *** Selections

    The persons for whom a mode's loop reaches [_send_to_person]. *)

Definition present_selected (m : Manager) (h : Hass.t) (p : Person.t) : bool :=
  home_of (Hass.states h) p || fle (prox_of (Hass.states h) p) (of_int (threshold m)).

Definition absent_selected (m : Manager) (h : Hass.t) (p : Person.t) : bool :=
  negb (home_of (Hass.states h) p)
  || fgt (prox_of (Hass.states h) p) (of_int (threshold m)).

Definition nearest_selected (m : Manager) (h : Hass.t) (p : Person.t) : bool :=
  match Py.min (prox_of (Hass.states h) <$> persons m) with
  | None => false
  | Some minp => fle (prox_of (Hass.states h) p) (fadd_int minp (threshold m))
  end.

Definition present_selection (m : Manager) (h : Hass.t) : list Person.t :=
  List.filter (present_selected m h) (persons m).

Definition absent_selection (m : Manager) (h : Hass.t) : list Person.t :=
  List.filter (absent_selected m h) (persons m).

Definition nearest_selection (m : Manager) (h : Hass.t) : list Person.t :=
  List.filter (nearest_selected m h) (persons m).

(** The service call [_send_to_person] makes for [p], if any. *)
Definition person_call (data payload : gmap string value) (p : Person.t)
    : option Hass.ServiceCall :=
  match Person.notification_service p with
  | None => None
  | Some svc =>
      if String.eqb svc "" then None
      else Some {| Hass.sc_domain := (domain_service svc).1;
                   Hass.sc_service := (domain_service svc).2;
                   Hass.sc_data := notify_data data payload |}
  end.

(** The service call [_clear_notifications] makes for [p], if any. *)
Definition clear_call (p : Person.t) : option Hass.ServiceCall :=
  match Person.notification_service p with
  | None => None
  | Some svc =>
      if String.eqb svc "" then None
      else Some {| Hass.sc_domain := (domain_service svc).1;
                   Hass.sc_service := (domain_service svc).2;
                   Hass.sc_data := {[ "message" := VS (SStr "clear_notification") ]} |}
  end.

(** [{"action": cb.get("event"), "title": cb.get("title")}] *)
Definition to_action (cb : gmap string scalar) : gmap string scalar :=
  {[ "action" := default SNone (cb !! "event");
     "title" := default SNone (cb !! "title") ]}.


(** The platform after the unsubscribe callables of the given handles
    were called in turn, failures ignored. *)
Definition remove_all (rs : list nat) (h : Hass.t) : Hass.t :=
  fold_left (λ h r, (Hass.remove r h).2) rs h.

(** Whether a subscription is a watch registered for [tag]. *)
Definition is_watch_for (tag : scalar) (s : Hass.Subscription) : bool :=
  match s with
  | Hass.StateTracker _ _ (Hass.AUntil (VS t)) => bool_decide (key t = key tag)
  | _ => false
  end.

(** How many live subscriptions are watches for [tag]. *)
Definition live_watches (tag : scalar) (h : Hass.t) : nat :=
  length (List.filter (λ kv, is_watch_for tag kv.2) (map_to_list (Hass.subs h))).

(** The platform after the given calls were attempted in turn. *)
Definition dispatch_all (h : Hass.t) (cs : list Hass.ServiceCall) : Hass.t :=
  fold_left
    (λ h c, (Hass.async_call (Hass.sc_domain c) (Hass.sc_service c) (Hass.sc_data c) h).2)
    cs h.

(** The calls made since the log had [n] entries. *)
Definition calls_since (n : nat) (h : Hass.t) : list Hass.ServiceCall :=
  fst <$> drop n (Hass.calls h).

(** *** The three stages of [_handle_notifier_event]

    The handler runs its [if action:] block, then the [persistent] notice,
    then the [until] loop; each stage is named here so that statements can
    speak of the outcome of the stages before it. *)

(** The [if action:] block *)
Definition route (data : gmap string value) : M unit :=
  let action := data !! "action" in
  if truthy_opt action then
    match action with
    | Some (VS (SStr a)) =>
        if String.eqb a "send_to_all" then _send_to_all data
        else if String.eqb a "send_to_present" then _send_to_present data
        else if String.eqb a "send_to_absent" then _send_to_absent data
        else if String.eqb a "send_to_nearest" then _send_to_nearest data
        else if String.eqb a "send_when_present" then _send_when_present data
        else if String.prefix "send_to_" a then
          let name := drop_chars (String.length "send_to_") a in
          let* ps := gets persons in
          for_ ps (λ p,
            if String.eqb (Person.name p) name then _send_to_person data p
            else ret tt)
        else ret tt
    | _ => raise AttributeError
    end
  else ret tt.

(** The [if data.get("persistent"):] block *)
Definition notify_persistent (data : gmap string value) : M unit :=
  if truthy_opt (data !! "persistent") then
    _call_notify_service "persistent_notification"
      {[ "title" := default (VS (SStr "")) (data !! "title");
         "message" := default (VS (SStr "")) (data !! "message") ]} "notify"
  else ret tt.

(** The body of [for watcher in data["until"]:] *)
Definition watch_step (tag : value) (watcher : gmap string scalar) : M unit :=
  let entity_id := default SNone (watcher !! "entity_id") in
  let new_state := str (watcher !! "new_state") in
  let* remove :=
    hass_do (Hass.async_track_state_change
               entity_id (Hass.AUntil tag) (Some new_state)) in
  match tag with
  | VS s => modify (λ m, set_watchers (<[key s := remove]> (watchers m)) m)
  | _ => raise TypeError
  end.

(** The [if "until" in data and tag:] block *)
Definition register_watches (data : gmap string value) : M unit :=
  match data !! "until", data !! "tag" with
  | Some until, Some tag =>
      if truthy tag then
        let* ws := lift (iter_dicts until) in
        for_ ws (watch_step tag)
      else ret tt
  | _, _ => ret tt
  end.



(** Whether [_send_to_person] gets past [if not svc: return]. *)
Definition has_channel (p : Person.t) : bool :=
  match Person.notification_service p with
  | Some svc => negb (String.eqb svc "")
  | None => false
  end.

(** ["/" in s] *)
Fixpoint has_slash (s : string) : bool :=
  match s with
  | EmptyString => false
  | String c s' => Ascii.eqb c "/"%char || has_slash s'
  end.

(** The platform [h'] differs from [h] by further logged calls at most. *)
Definition calls_added (h h' : Hass.t) : Prop :=
  Hass.states h' = Hass.states h
  ∧ Hass.subs h' = Hass.subs h
  ∧ Hass.next_handle h' = Hass.next_handle h
  ∧ Hass.tasks h' = Hass.tasks h
  ∧ Hass.call_raises h' = Hass.call_raises h
  ∧ Hass.remove_raises h' = Hass.remove_raises h
  ∧ Hass.calls h `prefix_of` Hass.calls h'.

(** A computation only logs service calls: manager untouched, platform
    untouched but for the call log. *)
Definition only_calls (c : M unit) : Prop :=
  ∀ st, (c st).2.1 = st.1 ∧ calls_added st.2 (c st).2.2.

(** A computation makes and releases no subscription and leaves the
    registry of watches and the listener list alone. *)
Definition keeps_subscriptions (c : M unit) : Prop :=
  ∀ st, watchers (c st).2.1 = watchers st.1
        ∧ _listeners (c st).2.1 = _listeners st.1
        ∧ Hass.subs (c st).2.2 = Hass.subs st.2
        ∧ Hass.next_handle (c st).2.2 = Hass.next_handle st.2.

End Manager.

(** *** Sample configurations

    Persons, state stores and requests on which the code is run below. *)

Definition person_a : Person.t :=
  {| Person.name := "a"; Person.id := "person.a";
     Person.proximity_id := "sensor.a_proximity";
     Person.notification_service := Some "mobile_app_a" |}.

Definition person_b : Person.t :=
  {| Person.name := "b"; Person.id := "person.b";
     Person.proximity_id := "sensor.b_proximity";
     Person.notification_service := Some "notify/mobile_app_b" |}.

Definition occupancy : string := "binary_sensor.home_occupied".

(** threshold 500; a away at 300, b home at 9999 *)
Definition near_and_home : Manager * Hass.t :=
  (__init__ occupancy 500 [person_a; person_b],
   Hass.init {[ "person.a" := "not_home"; "sensor.a_proximity" := "300";
                "person.b" := "home"; "sensor.b_proximity" := "9999" ]}).

(** threshold 1000; nobody home, every proximity 9999 *)
Definition all_far : Manager * Hass.t :=
  (__init__ occupancy 1000 [person_a; person_b],
   Hass.init {[ "person.a" := "not_home"; "sensor.a_proximity" := "9999";
                "person.b" := "not_home"; "sensor.b_proximity" := "9999" ]}).


(** threshold 0; one person, whose proximity state reads [nan] *)
Definition nan_reading : Manager * Hass.t :=
  (__init__ occupancy 0 [person_a],
   Hass.init {[ "person.a" := "not_home"; "sensor.a_proximity" := "nan" ]}).

(** default threshold; one person, no state at all for that person *)
Definition no_presence_data : Manager * Hass.t :=
  (__init__ occupancy 1000 [person_a], Hass.init ∅).


Definition door_request : gmap string value :=
  {[ "action" := VS (SStr "send_to_present");
     "title" := VS (SStr "Door"); "message" := VS (SStr "Open") ]}.

Definition door_callbacks : list (gmap string scalar) :=
  [ {[ "event" := SStr "ack"; "title" := SStr "Seen" ]};
    {[ "event" := SStr "snooze" ]} ].

Definition tagged_request : gmap string value :=
  {[ "title" := VS (SStr "Door"); "message" := VS (SStr "Open");
     "tag" := VS (SStr "door"); "callback" := VList door_callbacks;
     "click_url" := VS (SStr "/lovelace/door") ]}.

(** A request that only registers a watch: clear tag [door] once the door
    sensor turns [off]. *)
Definition door_watch : gmap string value :=
  {[ "tag" := VS (SStr "door");
     "until" := VList [ {[ "entity_id" := SStr "binary_sensor.door";
                           "new_state" := SStr "off" ]} ] ]}.

(** default threshold; a away and far, occupancy sensor [off] *)
Definition away_and_off : Manager * Hass.t :=
  (__init__ occupancy 1000 [person_a],
   Hass.init {[ "person.a" := "not_home"; "sensor.a_proximity" := "9999";
                "binary_sensor.home_occupied" := "off" ]}).

(** the states once a has come home *)
Definition back_home : gmap string string :=
  {[ "person.a" := "home"; "sensor.a_proximity" := "0";
     "binary_sensor.home_occupied" := "on" ]}.


(** A platform on which every service call fails, holding the watch of
    tag [door] under handle 0. *)
Definition failing_dispatch : Manager * Hass.t :=
  (set_watchers {[ SStr "door" := 0 ]} (near_and_home.1),
   {| Hass.states := Hass.states near_and_home.2;
      Hass.subs := {[ 0 := Hass.StateTracker (SStr "binary_sensor.door") (Some "off")
                             (Hass.AUntil (VS (SStr "door"))) ]};
      Hass.next_handle := 1; Hass.calls := []; Hass.tasks := [];
      Hass.call_raises := λ _, true; Hass.remove_raises := λ _, false |}).


Definition named_request : gmap string value :=
  {[ "action" := VS (SStr "send_to_b");
     "title" := VS (SStr "Door"); "message" := VS (SStr "Open") ]}.

Definition numeric_action_request : gmap string value :=
  {[ "action" := VS (SInt 1); "persistent" := VS (SBool true);
     "title" := VS (SStr "Door") ]}.

(** A watch asked for without a tag. *)
Definition untagged_watch_request : gmap string value :=
  {[ "action" := VS (SStr "send_to_all"); "title" := VS (SStr "Door");
     "until" := VList [ {[ "entity_id" := SStr "binary_sensor.door";
                           "new_state" := SStr "off" ]} ] ]}.





(** The acknowledgement a phone sends back, with the tag nested. *)
Definition mobile_ack : gmap string value :=
  {[ "action" := VS (SStr "ack");
     "action_data" := VDict {[ "tag" := SStr "door" ]} ]}.

(** A running manager: one staged request, the occupancy tracker under
    handle 1, the watch of tag [door] under handle 0, and an event-bus
    listener under handle 2 that the manager holds no handle for. *)
Definition running : Manager * Hass.t :=
  (set_staged [door_request]
     (set_listeners [1] (set_watchers {[ SStr "door" := 0 ]} (near_and_home.1))),
   {| Hass.states := Hass.states near_and_home.2;
      Hass.subs :=
        {[ 0 := Hass.StateTracker (SStr "binary_sensor.door") (Some "off")
                  (Hass.AUntil (VS (SStr "door")));
           1 := Hass.StateTracker (SStr occupancy) None Hass.AHomeStateChanged;
           2 := Hass.BusListener "NOTIFIER" Hass.HNotifierEvent ]};
      Hass.next_handle := 3; Hass.calls := []; Hass.tasks := [];
      Hass.call_raises := λ _, false; Hass.remove_raises := λ _, false |}).

(* ===================================================================== *)
(** ** Properties *)
(* ===================================================================== *)

(** *** Float comparison *)





(** [a > b] rules out [a <= b]. *)
Lemma fgt_not_fle a b : fgt a b = true → fle a b = false.
Proof.
  unfold fgt. destruct a, b; simpl; try done.
  by rewrite negb_true_iff.
Qed.



(** *** [min] *)






(** *** Loops and dispatch *)

Lemma for_ext {A} (l : list A) (f g : A → M unit) st :
  (∀ x st, f x st = g x st) → for_ l f st = for_ l g st.
Proof.
  intros Hfg. revert st. induction l as [|x l IH]; intros st; [done|].
  simpl. unfold bind. rewrite Hfg. destruct (g x st) as [[[]|e] st']; [apply IH | done].
Qed.

Lemma for_app {A} (l1 l2 : list A) (f : A → M unit) st :
  for_ (l1 ++ l2) f st = (for_ l1 f;; for_ l2 f) st.
Proof.
  revert st. induction l1 as [|x l1 IH]; intros st; simpl; [done|].
  unfold bind in *. destruct (f x st) as [[[]|e] st']; [apply IH | done].
Qed.

(** A loop whose body is guarded by a test on the manager and the state
    store runs the body on the elements that pass the test at entry. *)
Lemma for_guarded {A} (cond : Manager → gmap string string → A → bool)
    (body : A → M unit) (l : list A) st :
  (∀ x, frames (body x)) →
  for_ l (λ x st, if cond st.1 (Hass.states st.2) x then body x st else (Ok tt, st)) st
  = for_ (List.filter (cond st.1 (Hass.states st.2)) l) body st.
Proof.
  intros Hfr. revert st. induction l as [|x l IH]; intros st; [done|].
  simpl. unfold bind.
  destruct (cond st.1 (Hass.states st.2) x) eqn:Hc; simpl.
  - unfold bind. destruct (Hfr x st) as [Hm Hs].
    destruct (body x st) as [[[]|e] st'] eqn:Hb; [|done].
    simpl in Hm, Hs. rewrite IH. by rewrite Hm, Hs.
  - apply IH.
Qed.

Lemma dispatch_all_states h cs : Hass.states (dispatch_all h cs) = Hass.states h.
Proof.
  revert h. induction cs as [|c cs IH]; intros h; [done|].
  simpl. by rewrite IH.
Qed.

Lemma dispatch_all_subs h cs : Hass.subs (dispatch_all h cs) = Hass.subs h.
Proof.
  revert h. induction cs as [|c cs IH]; intros h; [done|].
  simpl. by rewrite IH.
Qed.

Lemma dispatch_all_tasks h cs : Hass.tasks (dispatch_all h cs) = Hass.tasks h.
Proof.
  revert h. induction cs as [|c cs IH]; intros h; [done|].
  simpl. by rewrite IH.
Qed.

Lemma dispatch_all_remove_raises h cs :
  Hass.remove_raises (dispatch_all h cs) = Hass.remove_raises h.
Proof.
  revert h. induction cs as [|c cs IH]; intros h; [done|].
  simpl. by rewrite IH.
Qed.

(** Every attempted call is logged, whether or not it fails. *)
Lemma dispatch_all_calls h cs :
  fst <$> Hass.calls (dispatch_all h cs) = (fst <$> Hass.calls h) ++ cs.
Proof.
  revert h. induction cs as [|c cs IH]; intros h; simpl.
  - by rewrite app_nil_r.
  - rewrite IH. simpl. rewrite fmap_app. simpl.
    rewrite <- app_assoc. by destruct c.
Qed.

Lemma calls_since_dispatch_all h cs :
  calls_since (length (Hass.calls h)) (dispatch_all h cs) = cs.
Proof.
  unfold calls_since. rewrite fmap_drop, dispatch_all_calls.
  rewrite <- (length_fmap fst (Hass.calls h)).
  by rewrite drop_app_length.
Qed.

Lemma _call_notify_service_run service data domain m h :
  _call_notify_service service data domain (m, h)
  = (Ok tt, (m, (Hass.async_call domain service data h).2)).
Proof.
  unfold _call_notify_service, try_except, hass_try, Hass.async_call. simpl.
  by destruct (Hass.call_raises h (length (Hass.calls h))).
Qed.

Section Properties.

Variable py_float : string → option pyfloat.

Lemma _send_to_person_frames data p : frames (_send_to_person data p).
Proof.
  intros [m h]. unfold _send_to_person.
  destruct (Person.notification_service p) as [svc|]; [|done].
  destruct (String.eqb svc ""); [done|].
  destruct (domain_service svc) as [domain service].
  unfold bind, lift. destruct (_build_payload data) as [payload|e]; [|done].
  by rewrite _call_notify_service_run.
Qed.

(** With a well-formed request, [_send_to_person] makes the person's call
    (if the person has a channel) and returns. *)
Lemma _send_to_person_run data payload p m h :
  _build_payload data = Ok payload →
  _send_to_person data p (m, h)
  = (Ok tt, (m, dispatch_all h (option_list (person_call data payload p)))).
Proof.
  intros Hp. unfold _send_to_person, person_call.
  destruct (Person.notification_service p) as [svc|]; [|done].
  destruct (String.eqb svc ""); [done|].
  destruct (domain_service svc) as [domain service].
  unfold bind, lift. rewrite Hp. by rewrite _call_notify_service_run.
Qed.

Lemma dispatch_all_app h cs1 cs2 :
  dispatch_all h (cs1 ++ cs2) = dispatch_all (dispatch_all h cs1) cs2.
Proof. unfold dispatch_all. apply fold_left_app. Qed.

Lemma for_send_to_person_run data payload ps m h :
  _build_payload data = Ok payload →
  for_ ps (_send_to_person data) (m, h)
  = (Ok tt, (m, dispatch_all h (omap (person_call data payload) ps))).
Proof.
  intros Hp. revert h. induction ps as [|p ps IH]; intros h; [done|].
  simpl. unfold bind. rewrite (_send_to_person_run _ payload) by done.
  rewrite IH. do 2 f_equal.
  destruct (person_call data payload p); simpl; done.
Qed.

(** Each selecting mode sends to its selection, taken on the states the
    platform holds when the mode starts. *)
Lemma _send_to_present_selection data st :
  _send_to_present py_float data st
  = for_ (present_selection py_float st.1 st.2) (_send_to_person data) st.
Proof.
  unfold _send_to_present, present_selection, bind, gets. simpl.
  etrans; [|apply (for_guarded
                     (λ m s p, home_of s p
                               || fle (prox_of py_float s p) (of_int (threshold m))));
            apply _send_to_person_frames].
  apply for_ext. intros p st'. unfold bind, hass_gets, gets. simpl.
  by destruct (_ || _).
Qed.

Lemma _send_to_absent_selection data st :
  _send_to_absent py_float data st
  = for_ (absent_selection py_float st.1 st.2) (_send_to_person data) st.
Proof.
  unfold _send_to_absent, absent_selection, bind, gets. simpl.
  etrans; [|apply (for_guarded
                     (λ m s p, negb (home_of s p)
                               || fgt (prox_of py_float s p) (of_int (threshold m))));
            apply _send_to_person_frames].
  apply for_ext. intros p st'. unfold bind, hass_gets, gets. simpl.
  by destruct (_ || _).
Qed.

Lemma _send_to_nearest_selection data st :
  _send_to_nearest py_float data st
  = for_ (nearest_selection py_float st.1 st.2) (_send_to_person data) st.
Proof.
  unfold _send_to_nearest, nearest_selection, bind, gets, hass_gets. simpl.
  destruct (Py.min (prox_of py_float (Hass.states st.2) <$> persons st.1))
    as [minp|] eqn:Hmin.
  - rewrite (List.filter_ext (nearest_selected py_float st.1 st.2)
               (λ p, fle (prox_of py_float (Hass.states st.2) p)
                         (fadd_int minp (threshold st.1)))).
    2:{ intros p. unfold nearest_selected. by rewrite Hmin. }
    etrans; [|apply (for_guarded
                       (λ m s p, fle (prox_of py_float s p) (fadd_int minp (threshold m))));
              apply _send_to_person_frames].
    apply for_ext. intros p st'. unfold bind, hass_gets, gets. simpl.
    by destruct (fle _ _).
  - destruct (persons st.1); [done|discriminate].
Qed.

Lemma present_selected_iff m h p :
  present_selected py_float m h p = true ↔
  home_of (Hass.states h) p = true
  ∨ fle (prox_of py_float (Hass.states h) p) (of_int (threshold m)) = true.
Proof. unfold present_selected. apply orb_true_iff. Qed.


Lemma elem_of_filter_bool {A} (f : A → bool) (l : list A) x :
  x ∈ List.filter f l ↔ x ∈ l ∧ f x = true.
Proof. rewrite !list_elem_of_In. apply filter_In. Qed.

(** *** The [present] mode *)

(** C6: [send_to_present] reaches exactly the configured persons who are
    home or whose proximity is at most the threshold; when nobody is home
    and every proximity exceeds the threshold, it makes no service call and
    changes nothing. *)
Theorem send_to_present_rule (m : Manager) (h : Hass.t) (data : gmap string value) :
  (∀ p, p ∈ present_selection py_float m h ↔
        p ∈ persons m
        ∧ (home_of (Hass.states h) p = true
           ∨ fle (prox_of py_float (Hass.states h) p) (of_int (threshold m)) = true))
  ∧ _send_to_present py_float data (m, h)
    = for_ (present_selection py_float m h) (_send_to_person data) (m, h)
  ∧ ((∀ p, p ∈ persons m →
           home_of (Hass.states h) p = false
           ∧ fgt (prox_of py_float (Hass.states h) p) (of_int (threshold m)) = true) →
     _send_to_present py_float data (m, h) = (Ok tt, (m, h))).
Proof.
  split; [|split].
  - intros p. unfold present_selection.
    by rewrite elem_of_filter_bool, present_selected_iff.
  - apply _send_to_present_selection.
  - intros Hfar. rewrite _send_to_present_selection. simpl.
    assert (present_selection py_float m h = []) as ->; [|done].
    unfold present_selection.
    induction (persons m) as [|p ps IH]; [done|]. simpl.
    destruct (Hfar p) as [Hh Hp]; [by left|].
    unfold present_selected at 1. rewrite Hh, (fgt_not_fle _ _ Hp). simpl.
    apply IH. intros q Hq. apply Hfar. by right.
Qed.

(** *** The [nearest] mode *)


(** *** Missing presence data *)




End Properties.

(** *** Deferred delivery *)

(** C10: with no state at all for the home-occupancy sensor, a
    [send_when_present] request is appended to the staging queue and the
    platform is left untouched, the same outcome as for any state other
    than [on]. *)
Theorem send_when_present_without_sensor_state
    (py_float : string → option pyfloat)
    (m : Manager) (h : Hass.t) (data : gmap string value) :
  (Hass.states h !! home_sensor m = None →
   _send_when_present py_float data (m, h)
   = (Ok tt, (set_staged (staged m ++ [data]) m, h)))
  ∧ (∀ s, Hass.states h !! home_sensor m = Some s → s ≠ "on" →
     _send_when_present py_float data (m, h)
     = (Ok tt, (set_staged (staged m ++ [data]) m, h))).
Proof.
  unfold _send_when_present, bind, gets, hass_gets, modify. simpl. split.
  - by intros ->.
  - intros s -> Hs. apply String.eqb_neq in Hs. by rewrite Hs.
Qed.






(** *** Clearing a tag *)

Lemma clear_loop_run ps m h :
  for_ ps (λ p,
    match Person.notification_service p with
    | None => ret tt
    | Some svc =>
        if String.eqb svc "" then ret tt
        else
          let '(domain, service) := domain_service svc in
          _call_notify_service service
            {[ "message" := VS (SStr "clear_notification") ]} domain
    end) (m, h)
  = (Ok tt, (m, dispatch_all h (omap clear_call ps))).
Proof.
  revert h. induction ps as [|p ps IH]; intros h; [done|].
  simpl. unfold bind, clear_call.
  destruct (Person.notification_service p) as [svc|]; [|apply IH].
  destruct (String.eqb svc ""); [apply IH|].
  destruct (domain_service svc) as [domain service].
  rewrite _call_notify_service_run. apply IH.
Qed.

(** C8: [_clear_notifications] attempts the clear call of every person
    that has a channel, whatever the outcome of each call, and returns;
    afterwards the tag has no entry in the registry, and the unsubscribe
    callable of the entry it had, if any, has been called: the watch
    subscription is gone unless that very unsubscribe call failed. *)
Theorem clear_notifications_removes_watch (m : Manager) (h : Hass.t) (tag : scalar) :
  ∃ h',
    _clear_notifications (VS tag) (m, h)
    = (Ok tt, (set_watchers (delete (key tag) (watchers m)) m, h'))
    ∧ calls_since (length (Hass.calls h)) h' = omap clear_call (persons m)
    ∧ watchers (set_watchers (delete (key tag) (watchers m)) m) !! key tag = None
    ∧ h' = match watchers m !! key tag with
           | Some r => (Hass.remove r (dispatch_all h (omap clear_call (persons m)))).2
           | None => dispatch_all h (omap clear_call (persons m))
           end
    ∧ (∀ r, watchers m !! key tag = Some r →
            Hass.subs h' !! r
            = if Hass.remove_raises h r then Hass.subs h !! r else None).
Proof.
  eexists. split; [|split; [|split; [|split; [reflexivity|]]]].
  - unfold _clear_notifications, bind, gets, modify. simpl.
    rewrite clear_loop_run. simpl.
    destruct (watchers m !! key tag) as [r|] eqn:Hr; [|done].
    unfold try_except, hass_try, Hass.remove. simpl.
    by destruct (Hass.remove_raises _ r).
  - destruct (watchers m !! key tag) as [r|].
    + unfold Hass.remove.
      destruct (Hass.remove_raises _ r); simpl; apply calls_since_dispatch_all.
    + apply calls_since_dispatch_all.
  - simpl. apply lookup_delete_eq.
  - intros r ->. unfold Hass.remove.
    rewrite dispatch_all_remove_raises.
    destruct (Hass.remove_raises h r); simpl.
    + by rewrite dispatch_all_subs.
    + apply lookup_delete_eq.
Qed.

(** *** The payload *)

(** C9: on a request whose [callback], when given, is a list of dicts,
    [_build_payload] returns a payload that depends on the request alone.
    Its [actions] are the callbacks in order, one action per callback, with
    [event] renamed to [action]; [tag], [image_url], [click_url] and
    [color] come through unchanged as [tag], [image], [clickAction] and
    [color]; a field absent from the request is absent from the payload,
    and the payload has no other key.  [title] and [message] are added by
    [_send_to_person], which sends the payload with these two on the
    person's channel. *)
Theorem build_payload_mapping
    (data : gmap string value) (cbs : option (list (gmap string scalar))) :
  data !! "callback" = VList <$> cbs →
  ∃ payload,
    _build_payload data = Ok payload
    ∧ payload !! "actions" = (λ l, VList (to_action <$> l)) <$> cbs
    ∧ payload !! "tag" = data !! "tag"
    ∧ payload !! "image" = data !! "image_url"
    ∧ payload !! "clickAction" = data !! "click_url"
    ∧ payload !! "color" = data !! "color"
    ∧ (∀ k, k ∉ ["actions"; "tag"; "image"; "clickAction"; "color"] →
            payload !! k = None)
    ∧ notify_data data payload !! "title"
      = Some (default (VS (SStr "")) (data !! "title"))
    ∧ notify_data data payload !! "message"
      = Some (default (VS (SStr "")) (data !! "message"))
    ∧ (∀ k, k ≠ "title" → k ≠ "message" →
            notify_data data payload !! k = payload !! k)
    ∧ (∀ p m h,
         _send_to_person data p (m, h)
         = (Ok tt, (m, dispatch_all h (option_list (person_call data payload p))))).
Proof.
  intros Hcb.
  assert (∃ payload, _build_payload data = Ok payload) as [payload Hp].
  { unfold _build_payload. rewrite Hcb. destruct cbs; simpl; eauto. }
  exists payload. split; [done|].
  assert (Hkeys : payload !! "actions" = (λ l, VList (to_action <$> l)) <$> cbs
          ∧ payload !! "tag" = data !! "tag"
          ∧ payload !! "image" = data !! "image_url"
          ∧ payload !! "clickAction" = data !! "click_url"
          ∧ payload !! "color" = data !! "color"
          ∧ (∀ k, k ∉ ["actions"; "tag"; "image"; "clickAction"; "color"] →
                  payload !! k = None)).
  { revert Hp. unfold _build_payload. rewrite Hcb.
    destruct cbs as [l|]; simpl;
      destruct (data !! "tag"), (data !! "image_url"),
               (data !! "click_url"), (data !! "color");
      intros [= <-];
      (split_and!; try by simplify_map_eq);
      intros k Hk; rewrite !not_elem_of_cons in Hk;
      destruct Hk as (? & ? & ? & ? & ? & _); by simplify_map_eq. }
  destruct Hkeys as (Ha & Ht & Hi & Hc & Hco & Hother).
  repeat (split; [done|]).
  assert (payload !! "title" = None) as Htitle.
  { apply Hother. rewrite !not_elem_of_cons. repeat split; try done. apply not_elem_of_nil. }
  assert (payload !! "message" = None) as Hmsg.
  { apply Hother. rewrite !not_elem_of_cons. repeat split; try done. apply not_elem_of_nil. }
  unfold notify_data. split; [|split; [|split]].
  - rewrite lookup_union_r by done. by simplify_map_eq.
  - rewrite lookup_union_r by done. by simplify_map_eq.
  - intros k Hk1 Hk2. rewrite lookup_union_l; [done|]. by simplify_map_eq.
  - intros p m h. by apply _send_to_person_run.
Qed.

(** *** Start and stop *)

(** Lookups of handles in a subscription table built from inserts and
    deletes at handles that differ by a known offset. *)
Ltac handle_lookup :=
  repeat first
    [ rewrite lookup_insert_eq
    | rewrite lookup_delete_eq
    | rewrite lookup_insert_ne by lia
    | rewrite lookup_delete_ne by lia ].

Lemma for_fmap {A B} (f : A → B) (l : list A) (g : B → M unit) st :
  for_ (f <$> l) g st = for_ l (λ x, g (f x)) st.
Proof.
  revert st. induction l as [|x l IH]; intros st; [done|].
  simpl. unfold bind. destruct (g (f x) st) as [[[]|e] st']; [apply IH | done].
Qed.

Lemma try_remove_run r m h : try_remove r (m, h) = (Ok tt, (m, (Hass.remove r h).2)).
Proof.
  unfold try_remove, try_except, hass_try, Hass.remove. simpl.
  by destruct (Hass.remove_raises h r).
Qed.

Lemma for_try_remove_run rs m h :
  for_ rs try_remove (m, h) = (Ok tt, (m, remove_all rs h)).
Proof.
  revert h. induction rs as [|r rs IH]; intros h; [done|].
  simpl. unfold bind. rewrite try_remove_run. apply IH.
Qed.

Lemma remove_remove_raises r h :
  Hass.remove_raises (Hass.remove r h).2 = Hass.remove_raises h.
Proof. unfold Hass.remove. by destruct (Hass.remove_raises h r). Qed.

Lemma remove_all_remove_raises rs h :
  Hass.remove_raises (remove_all rs h) = Hass.remove_raises h.
Proof.
  revert h. induction rs as [|r rs IH]; intros h; [done|].
  simpl. by rewrite IH, remove_remove_raises.
Qed.

(** Handles that are not called keep their subscription. *)
Lemma remove_all_other rs h r :
  r ∉ rs → Hass.subs (remove_all rs h) !! r = Hass.subs h !! r.
Proof.
  revert h. induction rs as [|r' rs IH]; intros h Hr; [done|].
  apply not_elem_of_cons in Hr as [Hne Hr]. simpl. rewrite IH by done.
  unfold Hass.remove. destruct (Hass.remove_raises h r'); [done|].
  simpl. by apply lookup_delete_ne.
Qed.

(** Once a subscription is gone, it stays gone. *)
Lemma remove_all_gone rs h r :
  Hass.subs h !! r = None → Hass.subs (remove_all rs h) !! r = None.
Proof.
  revert h. induction rs as [|r' rs IH]; intros h Hr; [done|].
  simpl. apply IH. unfold Hass.remove.
  destruct (Hass.remove_raises h r'); [done|]. simpl.
  rewrite lookup_delete. by case_decide.
Qed.

(** A handle whose unsubscribe does not fail is released. *)
Lemma remove_all_released rs h r :
  r ∈ rs → Hass.remove_raises h r = false → Hass.subs (remove_all rs h) !! r = None.
Proof.
  revert h. induction rs as [|r' rs IH]; intros h Hr Hok; [by inversion Hr|].
  simpl. destruct (decide (r = r')) as [<-|Hne].
  - apply remove_all_gone. unfold Hass.remove. rewrite Hok. simpl.
    apply lookup_delete_eq.
  - apply elem_of_cons in Hr as [?|Hr]; [done|].
    apply IH; [done|]. by rewrite remove_remove_raises.
Qed.

(** [async_stop] returns normally whichever unsubscribe calls fail, with
    both [_listeners] and [watchers] emptied; every handle they held has
    been called, and is released unless its own call failed. *)
Lemma async_stop_returns m h :
  async_stop (m, h)
  = (Ok tt, (set_watchers ∅ (set_listeners [] m),
             remove_all (map_to_list (watchers m)).*2 (remove_all (_listeners m) h)))
  ∧ ∀ r, (r ∈ _listeners m ∨ ∃ tag, watchers m !! tag = Some r) →
         Hass.remove_raises h r = false →
         Hass.subs (remove_all (map_to_list (watchers m)).*2
                      (remove_all (_listeners m) h)) !! r = None.
Proof.
  split.
  - unfold async_stop, bind, gets, modify. simpl.
    rewrite for_try_remove_run. simpl.
    rewrite (for_ext _ _ (λ x, try_remove x.2)) by (by intros []).
    rewrite <- (for_fmap snd (map_to_list (watchers m)) try_remove).
    by rewrite for_try_remove_run.
  - intros r [Hr|[tag Hr]] Hok.
    + apply remove_all_gone. by apply remove_all_released.
    + apply remove_all_released; [|by rewrite remove_all_remove_raises].
      apply list_elem_of_fmap. exists (tag, r). split; [done|].
      by apply elem_of_map_to_list.
Qed.

(** C3, where the code departs from it: on a fresh manager, [async_start]
    followed by [async_stop] returns normally, but the three event-bus
    listeners registered by [async_start] are still subscribed afterwards:
    their unsubscribe callables were never kept.  Only the home-occupancy
    tracker is released (unless its own unsubscribe call fails). *)
Theorem stop_leaves_bus_listeners
    (sensor : string) (thr : Z) (ps : list Person.t) (h : Hass.t) :
  let m := __init__ sensor thr ps in
  let n := Hass.next_handle h in
  ∃ h',
    (async_start;; async_stop) (m, h) = (Ok tt, (m, h'))
    ∧ Hass.subs h' !! n = Some (Hass.BusListener "NOTIFIER" Hass.HNotifierEvent)
    ∧ Hass.subs h' !! S n
      = Some (Hass.BusListener "NOTIFIER_DISCARD" Hass.HDiscardEvent)
    ∧ Hass.subs h' !! S (S n)
      = Some (Hass.BusListener "mobile_app_notification_action" Hass.HMobileAction)
    ∧ Hass.subs h' !! S (S (S n))
      = if Hass.remove_raises h (S (S (S n)))
        then Some (Hass.StateTracker (SStr sensor) None Hass.AHomeStateChanged)
        else None.
Proof.
  intros m n. eexists. split; [|split; [|split; [|split]]].
  - unfold bind at 1. unfold async_start, bind, hass_do, gets, modify. simpl.
    destruct (async_stop_returns
                (set_listeners [S (S (S n))] m)
                (Hass.async_track_state_change (SStr sensor) Hass.AHomeStateChanged None
                   (Hass.async_listen "mobile_app_notification_action" Hass.HMobileAction
                      (Hass.async_listen "NOTIFIER_DISCARD" Hass.HDiscardEvent
                         (Hass.async_listen "NOTIFIER" Hass.HNotifierEvent h).2).2).2).2)
      as [Hrun _].
    simpl in Hrun. rewrite map_to_list_empty in Hrun. simpl in Hrun.
    exact Hrun.
  - subst n. unfold Hass.remove. simpl. destruct (Hass.remove_raises h _); simpl;
      by handle_lookup.
  - subst n. unfold Hass.remove. simpl. destruct (Hass.remove_raises h _); simpl;
      by handle_lookup.
  - subst n. unfold Hass.remove. simpl. destruct (Hass.remove_raises h _); simpl;
      by handle_lookup.
  - subst n. unfold Hass.remove. simpl. destruct (Hass.remove_raises h _); simpl;
      by handle_lookup.
Qed.

(** *** Watches *)

(** C2, where the code departs from it: handling the same watch request
    twice leaves one registry entry for the tag but two live watch
    subscriptions, the first of which no registry entry refers to any
    more; clearing the tag afterwards empties the registry and releases
    the second subscription only, so a watch for the tag stays live. *)
Theorem second_watch_leaks_first :
  let st1 := (_handle_notifier_event float_lit door_watch near_and_home).2 in
  let st2 := (_handle_notifier_event float_lit door_watch st1).2 in
  let st3 := (_clear_notifications (VS (SStr "door")) st2).2 in
  watchers st1.1 = {[ SStr "door" := 0 ]}
  ∧ live_watches (SStr "door") st1.2 = 1
  ∧ watchers st2.1 = {[ SStr "door" := 1 ]}
  ∧ live_watches (SStr "door") st2.2 = 2
  ∧ watchers st3.1 = ∅
  ∧ live_watches (SStr "door") st3.2 = 1
  ∧ Hass.subs st3.2 !! 0
    = Some (Hass.StateTracker (SStr "binary_sensor.door") (Some "off")
              (Hass.AUntil (VS (SStr "door")))).
Proof. intros. split_and!; vm_compute; reflexivity. Qed.

(** *** The [absent] mode *)

(** C1, where the code departs from it: with threshold 500, a away at
    proximity 300 and b home at proximity 9999, [send_to_absent] notifies
    both, the very persons [send_to_present] notifies. *)
Theorem absent_selects_the_present_persons :
  present_selection float_lit near_and_home.1 near_and_home.2 = [person_a; person_b]
  ∧ absent_selection float_lit near_and_home.1 near_and_home.2 = [person_a; person_b]
  ∧ (Hass.sc_service <$>
       calls_since 0 (_send_to_absent float_lit door_request near_and_home).2.2)
    = ["mobile_app_a"; "mobile_app_b"].
Proof. intros. split_and!; vm_compute; reflexivity. Qed.

(** *** Counterexamples and instances *)


(** It also fails on a NaN reading, whatever the threshold. *)
Lemma nearest_empty_for_nan_reading :
  persons nan_reading.1 = [person_a]
  ∧ nearest_selection float_lit nan_reading.1 nan_reading.2 = [].
Proof. split; vm_compute; reflexivity. Qed.


(** Such a person is selected by [present] as well once the threshold
    reaches the sentinel. *)
Lemma defaulted_person_selected_by_present :
  present_selection float_lit
    (set_threshold 9999 no_presence_data.1) no_presence_data.2 = [person_a].
Proof. vm_compute. reflexivity. Qed.

(** The [present] rule on the all-far configuration: nobody is home,
    every proximity is 9999 and the threshold is 1000, so the request
    causes no service call. *)
Lemma send_to_present_rule_witness :
  (∀ p, p ∈ persons all_far.1 →
        home_of (Hass.states all_far.2) p = false
        ∧ fgt (prox_of float_lit (Hass.states all_far.2) p)
              (of_int (threshold all_far.1)) = true)
  ∧ _send_to_present float_lit door_request all_far = (Ok tt, all_far).
Proof.
  assert (Hfar : ∀ p, p ∈ persons all_far.1 →
            home_of (Hass.states all_far.2) p = false
            ∧ fgt (prox_of float_lit (Hass.states all_far.2) p)
                  (of_int (threshold all_far.1)) = true).
  { intros p Hp. apply list_elem_of_In in Hp. simpl in Hp.
    destruct Hp as [<-|[<-|[]]]; split; vm_compute; reflexivity. }
  split; [exact Hfar|].
  exact (proj2 (proj2 (send_to_present_rule float_lit all_far.1 all_far.2 door_request))
           Hfar).
Defined.




(** Deferred delivery on a platform that has no state for the occupancy
    sensor. *)
Lemma send_when_present_without_sensor_state_witness :
  Hass.states no_presence_data.2 !! home_sensor no_presence_data.1 = None
  ∧ _send_when_present float_lit door_request no_presence_data
    = (Ok tt, (set_staged [door_request] no_presence_data.1, no_presence_data.2)).
Proof.
  assert (Hass.states no_presence_data.2 !! home_sensor no_presence_data.1 = None)
    as Hnone by (vm_compute; reflexivity).
  split; [exact Hnone|].
  exact (proj1 (send_when_present_without_sensor_state float_lit
                  no_presence_data.1 no_presence_data.2 door_request) Hnone).
Defined.

(** Clearing a tag on a platform where every service call fails: both
    clear calls are attempted, and the watch of the tag leaves the registry
    and the subscription table. *)
Lemma clear_notifications_removes_watch_witness :
  watchers failing_dispatch.1 !! key (SStr "door") = Some 0
  ∧ ∃ h',
      _clear_notifications (VS (SStr "door")) failing_dispatch
      = (Ok tt, (set_watchers (delete (key (SStr "door")) (watchers failing_dispatch.1))
                   failing_dispatch.1, h'))
      ∧ Hass.calls h'
        = [ ({| Hass.sc_domain := "notify"; Hass.sc_service := "mobile_app_a";
                Hass.sc_data := {[ "message" := VS (SStr "clear_notification") ]} |},
             false);
            ({| Hass.sc_domain := "notify"; Hass.sc_service := "mobile_app_b";
                Hass.sc_data := {[ "message" := VS (SStr "clear_notification") ]} |},
             false) ]
      ∧ Hass.subs h' !! 0 = None.
Proof.
  assert (watchers failing_dispatch.1 !! key (SStr "door") = Some 0) as Hw
    by (vm_compute; reflexivity).
  split; [exact Hw|].
  destruct (clear_notifications_removes_watch
              failing_dispatch.1 failing_dispatch.2 (SStr "door"))
    as (h' & Hrun & _ & _ & Hh' & Hsub).
  exists h'. split; [exact Hrun|]. split.
  - rewrite Hh'. vm_compute. reflexivity.
  - exact (Hsub 0 Hw).
Defined.

(** The payload of a request with a tag, two callbacks and a click URL,
    and neither image nor color. *)
Lemma build_payload_mapping_witness :
  tagged_request !! "callback" = VList <$> Some door_callbacks
  ∧ ∃ payload,
      _build_payload tagged_request = Ok payload
      ∧ payload !! "actions"
        = Some (VList [ {[ "action" := SStr "ack"; "title" := SStr "Seen" ]};
                        {[ "action" := SStr "snooze"; "title" := SNone ]} ])
      ∧ payload !! "tag" = Some (VS (SStr "door"))
      ∧ payload !! "clickAction" = Some (VS (SStr "/lovelace/door"))
      ∧ payload !! "image" = None
      ∧ payload !! "color" = None
      ∧ payload !! "title" = None
      ∧ notify_data tagged_request payload !! "title" = Some (VS (SStr "Door")).
Proof.
  assert (tagged_request !! "callback" = VList <$> Some door_callbacks) as Hcb
    by (vm_compute; reflexivity).
  split; [exact Hcb|].
  destruct (build_payload_mapping tagged_request (Some door_callbacks) Hcb)
    as (payload & Hrun & Ha & Ht & Hi & Hc & Hco & Hother & Htitle & _).
  exists payload. split; [exact Hrun|].
  split; [rewrite Ha; vm_compute; reflexivity|].
  split; [rewrite Ht; vm_compute; reflexivity|].
  split; [rewrite Hc; vm_compute; reflexivity|].
  split; [rewrite Hi; vm_compute; reflexivity|].
  split; [rewrite Hco; vm_compute; reflexivity|].
  split.
  - apply Hother. rewrite !not_elem_of_cons.
    repeat split; try discriminate. apply not_elem_of_nil.
  - rewrite Htitle. vm_compute. reflexivity.
Defined.

(** A request deferred while a is away (nobody would be selected then) is
    delivered to a once the sensor turns [on], by the states of that
    moment. *)
Example deferred_request_uses_drain_time_presence :
  let st1 := (_send_when_present float_lit door_request away_and_off).2 in
  let st2 := (st1.1, Hass.set_states back_home st1.2) in
  staged st1.1 = [door_request]
  ∧ Hass.calls st1.2 = []
  ∧ present_selection float_lit st1.1 st1.2 = []
  ∧ match _home_state_changed 1 "on" st2 with
    | Some (Ok _, st3) =>
        staged st3.1 = []
        ∧ Hass.tasks st3.2 = [Hass.TSendToPresent door_request]
        ∧ (Hass.sc_service <$>
             calls_since 0
               (run_task float_lit (Hass.TSendToPresent door_request) st3).2.2)
          = ["mobile_app_a"]
    | _ => False
    end.
Proof. intros. split_and!; vm_compute; try reflexivity. by split_and!. Qed.

(** *** The stages of the handler *)

Lemma handler_stages py_float data st :
  _handle_notifier_event py_float data st
  = (route py_float data;; notify_persistent data;; register_watches data) st.
Proof. reflexivity. Qed.

(** *** Deliveries only log calls *)

Lemma calls_added_refl h : calls_added h h.
Proof. by repeat split. Qed.

Lemma calls_added_trans h1 h2 h3 :
  calls_added h1 h2 → calls_added h2 h3 → calls_added h1 h3.
Proof.
  intros (? & ? & ? & ? & ? & ? & ?) (? & ? & ? & ? & ? & ? & ?).
  repeat split; try congruence. by etrans.
Qed.

Lemma calls_added_async_call domain service data h :
  calls_added h (Hass.async_call domain service data h).2.
Proof. repeat split; try done. simpl. by apply prefix_app_r. Qed.

Lemma only_calls_ret : only_calls (ret tt).
Proof. intros st. split; [done | apply calls_added_refl]. Qed.

Lemma only_calls_bind (c : M unit) (k : unit → M unit) :
  only_calls c → (∀ a, only_calls (k a)) → only_calls (c;; k tt).
Proof.
  intros Hc Hk st. unfold bind. destruct (Hc st) as [Hm Hh].
  destruct (c st) as [[[]|e] st1]; simpl in *.
  - destruct (Hk tt st1) as [Hm' Hh']. split; [congruence|].
    by eapply calls_added_trans.
  - done.
Qed.

Lemma only_calls_for {A} (l : list A) (body : A → M unit) :
  (∀ x, only_calls (body x)) → only_calls (for_ l body).
Proof.
  intros Hb. induction l as [|x l IH]; [apply only_calls_ret|].
  simpl. by apply (only_calls_bind (body x) (λ _, for_ l body)).
Qed.

Lemma only_calls_call_notify_service service data domain :
  only_calls (_call_notify_service service data domain).
Proof.
  intros [m h]. rewrite _call_notify_service_run. split; [done|].
  apply calls_added_async_call.
Qed.

Lemma only_calls_send_to_person data p : only_calls (_send_to_person data p).
Proof.
  intros [m h]. unfold _send_to_person.
  destruct (Person.notification_service p) as [svc|]; [|apply only_calls_ret].
  destruct (String.eqb svc ""); [apply only_calls_ret|].
  destruct (domain_service svc) as [domain service].
  unfold bind, lift. destruct (_build_payload data) as [payload|e].
  - apply only_calls_call_notify_service.
  - split; [done | apply calls_added_refl].
Qed.

Lemma only_calls_ext (c c' : M unit) :
  (∀ st, c st = c' st) → only_calls c' → only_calls c.
Proof. intros Heq Hc st. rewrite Heq. apply Hc. Qed.

Section Deliveries.

Variable py_float : string → option pyfloat.

Lemma only_calls_send_to_all data : only_calls (_send_to_all data).
Proof.
  intros st. unfold _send_to_all, bind, gets. simpl.
  apply (only_calls_for (persons st.1) (_send_to_person data)).
  apply only_calls_send_to_person.
Qed.

Lemma only_calls_send_to_present data : only_calls (_send_to_present py_float data).
Proof.
  intros st. rewrite _send_to_present_selection.
  apply only_calls_for, only_calls_send_to_person.
Qed.

Lemma only_calls_send_to_absent data : only_calls (_send_to_absent py_float data).
Proof.
  intros st. rewrite _send_to_absent_selection.
  apply only_calls_for, only_calls_send_to_person.
Qed.

Lemma only_calls_send_to_nearest data : only_calls (_send_to_nearest py_float data).
Proof.
  intros st. rewrite _send_to_nearest_selection.
  apply only_calls_for, only_calls_send_to_person.
Qed.

(** X1: Whatever the request and whatever fails, the four delivery modes leave
    the manager as it is (staging queue, registry of watches, listener
    list) and touch nothing on the platform but the call log, which only
    grows: they subscribe to nothing, release nothing and spawn nothing. *)
Theorem deliveries_only_log_calls (data : gmap string value) :
  only_calls (_send_to_all data)
  ∧ only_calls (_send_to_present py_float data)
  ∧ only_calls (_send_to_absent py_float data)
  ∧ only_calls (_send_to_nearest py_float data).
Proof.
  split_and!.
  - apply only_calls_send_to_all.
  - apply only_calls_send_to_present.
  - apply only_calls_send_to_absent.
  - apply only_calls_send_to_nearest.
Qed.

End Deliveries.

(** *** Delivery to everybody, and requests that cannot be delivered *)

Lemma person_call_has_channel data payload p :
  has_channel p = true ↔ is_Some (person_call data payload p).
Proof.
  unfold has_channel, person_call.
  destruct (Person.notification_service p) as [svc|]; [|by split; [|intros []]].
  destruct (String.eqb svc ""); simpl; split; try done; by intros [].
Qed.

Lemma length_omap_person_call data payload ps :
  length (omap (person_call data payload) ps) = length (List.filter has_channel ps).
Proof.
  induction ps as [|p ps IH]; [done|]. simpl.
  pose proof (person_call_has_channel data payload p) as Hp.
  destruct (has_channel p), (person_call data payload p); simpl.
  - by f_equal.
  - by destruct (proj1 Hp eq_refl) as [? ?].
  - discriminate (proj2 Hp (mk_is_Some _ _ eq_refl)).
  - done.
Qed.

(** X2: With a well-formed request, [_send_to_all] attempts one call per
    configured person that has a channel, in configuration order, whichever
    of these calls fail, and returns with the manager unchanged. *)
Theorem send_to_all_reaches_every_channel
    (data payload : gmap string value) (m : Manager) (h : Hass.t) :
  _build_payload data = Ok payload →
  ∃ h',
    _send_to_all data (m, h) = (Ok tt, (m, h'))
    ∧ calls_since (length (Hass.calls h)) h'
      = omap (person_call data payload) (persons m)
    ∧ length (Hass.calls h')
      = length (Hass.calls h) + length (List.filter has_channel (persons m)).
Proof.
  intros Hp. exists (dispatch_all h (omap (person_call data payload) (persons m))).
  split; [|split].
  - unfold _send_to_all, bind, gets. simpl. by apply for_send_to_person_run.
  - apply calls_since_dispatch_all.
  - rewrite <- (length_fmap fst (Hass.calls (dispatch_all _ _))).
    rewrite dispatch_all_calls, length_app, length_fmap.
    by rewrite length_omap_person_call.
Qed.



Section Malformed.

Variable py_float : string → option pyfloat.


End Malformed.

(** *** Routing *)


Lemma bind_ret_r (c : M unit) st : (c;; ret tt) st = c st.
Proof. unfold bind, ret. by destruct (c st) as [[[]|e] st1]. Qed.

Lemma for_filter_const {A} (f : A → bool) (body : A → M unit) (l : list A) st :
  for_ l (λ x, if f x then body x else ret tt) st = for_ (List.filter f l) body st.
Proof.
  revert st. induction l as [|x l IH]; intros st; [done|].
  simpl. destruct (f x); simpl; unfold bind.
  - destruct (body x st) as [[[]|e] st1]; [apply IH | done].
  - apply IH.
Qed.

Section Routing.

Variable py_float : string → option pyfloat.

(** X4: An action [send_to_<name>] whose name is none of [all], [present],
    [absent] and [nearest] delivers to the configured persons named exactly
    [name], all of them and in configuration order, and to nobody else;
    when no person bears the name, the action part does nothing.  The
    persistent notice and the watches of the request follow as for any
    other action. *)
Theorem named_delivery
    (data : gmap string value) (name : string) (st : St) :
  data !! "action" = Some (VS (SStr ("send_to_" +:+ name))) →
  name ∉ ["all"; "present"; "absent"; "nearest"] →
  _handle_notifier_event py_float data st
  = (for_ (List.filter (λ p, String.eqb (Person.name p) name) (persons st.1))
          (_send_to_person data);;
     notify_persistent data;; register_watches data) st
  ∧ ((∀ p, p ∈ persons st.1 → Person.name p ≠ name) →
     _handle_notifier_event py_float data st
     = (notify_persistent data;; register_watches data) st).
Proof.
  intros Ha Hname. rewrite !not_elem_of_cons in Hname.
  destruct Hname as (H1 & H2 & H3 & H4 & _).
  apply String.eqb_neq in H1, H2, H3, H4.
  assert (Hrun : _handle_notifier_event py_float data st
    = (for_ (List.filter (λ p, String.eqb (Person.name p) name) (persons st.1))
            (_send_to_person data);;
       notify_persistent data;; register_watches data) st).
  { rewrite handler_stages. unfold bind at 1. unfold bind at 3.
    assert (route py_float data st
            = for_ (List.filter (λ p, String.eqb (Person.name p) name) (persons st.1))
                   (_send_to_person data) st) as ->; [|done].
    unfold route. rewrite Ha. simpl. change ("" +:+ name) with name.
    rewrite H1, H2, H3, H4.
    assert (String.prefix "" name = true) as -> by (by destruct name).
    unfold bind, gets. simpl. apply for_filter_const. }
  split; [exact Hrun|].
  intros Hnone. rewrite Hrun.
  assert (List.filter (λ p, String.eqb (Person.name p) name) (persons st.1) = [])
    as ->; [|done].
  revert Hnone. generalize (persons st.1). intros ps.
  induction ps as [|p ps IH]; intros Hnone; [done|]. simpl.
  destruct (String.eqb_spec (Person.name p) name) as [Heq|Hne].
  - exfalso. apply (Hnone p); [apply list_elem_of_here | done].
  - apply IH. intros q Hq. apply Hnone. by apply list_elem_of_further.
Qed.

(** X5: An [action] that is truthy but not a string (a number, [true], a
    list) makes the handler raise [AttributeError] at once: nothing is
    delivered, no persistent notice is sent, no watch is registered. *)
Theorem non_string_action_raises
    (data : gmap string value) (v : value) (st : St) :
  data !! "action" = Some v →
  truthy v = true →
  (∀ a, v ≠ VS (SStr a)) →
  _handle_notifier_event py_float data st = (Raise AttributeError, st).
Proof.
  intros Ha Ht Hv. unfold _handle_notifier_event. rewrite Ha. simpl.
  rewrite Ht. unfold bind, raise.
  destruct v as [[| | |a]| |]; try done. by destruct (Hv a).
Qed.

End Routing.

(** *** Watches *)

Lemma only_calls_keeps (c : M unit) : only_calls c → keeps_subscriptions c.
Proof.
  intros Hc st. destruct (Hc st) as (Hm & _ & Hs & Hn & _).
  by rewrite Hm, Hs, Hn.
Qed.

Lemma keeps_subscriptions_bind (c c' : M unit) :
  keeps_subscriptions c → keeps_subscriptions c' → keeps_subscriptions (c;; c').
Proof.
  intros Hc Hc' st. unfold bind. destruct (Hc st) as (H1 & H2 & H3 & H4).
  destruct (c st) as [[[]|e] st1]; simpl in *; [|done].
  destruct (Hc' st1) as (H1' & H2' & H3' & H4'). split_and!; congruence.
Qed.

Lemma keeps_subscriptions_ret : keeps_subscriptions (ret tt).
Proof. by intros st. Qed.


Section Watches.

Variable py_float : string → option pyfloat.

Lemma keeps_subscriptions_send_when_present data :
  keeps_subscriptions (_send_when_present py_float data).
Proof.
  intros st. unfold _send_when_present, bind, gets, hass_gets. simpl.
  destruct (match Hass.states st.2 !! home_sensor st.1 with
            | Some s => String.eqb s "on" | None => false end).
  - apply only_calls_keeps, only_calls_send_to_present.
  - done.
Qed.

Lemma keeps_subscriptions_route data : keeps_subscriptions (route py_float data).
Proof.
  unfold route. destruct (truthy_opt (data !! "action")); [|apply keeps_subscriptions_ret].
  destruct (data !! "action") as [[[| | |a]| |]|]; try (by intros st).
  destruct (String.eqb a "send_to_all");
    [apply only_calls_keeps, only_calls_send_to_all|].
  destruct (String.eqb a "send_to_present");
    [apply only_calls_keeps, only_calls_send_to_present|].
  destruct (String.eqb a "send_to_absent");
    [apply only_calls_keeps, only_calls_send_to_absent|].
  destruct (String.eqb a "send_to_nearest");
    [apply only_calls_keeps, only_calls_send_to_nearest|].
  destruct (String.eqb a "send_when_present");
    [apply keeps_subscriptions_send_when_present|].
  destruct (String.prefix "send_to_" a); [|apply keeps_subscriptions_ret].
  intros st. unfold bind, gets. simpl.
  apply (only_calls_keeps (for_ (persons st.1) _)).
  apply only_calls_for. intros p.
  destruct (String.eqb _ _); [apply only_calls_send_to_person | apply only_calls_ret].
Qed.

Lemma keeps_subscriptions_notify_persistent data :
  keeps_subscriptions (notify_persistent data).
Proof.
  unfold notify_persistent. case_match; [|apply keeps_subscriptions_ret].
  apply only_calls_keeps, only_calls_call_notify_service.
Qed.

(** X6: Subscriptions change in the [until] loop only, and that loop needs a
    tag: a request whose tag is missing or falsy (an empty string, [0],
    null) registers no watch and leaves every subscription, the registry
    and the listener list as they were, whatever else it asks for. *)
Theorem until_without_tag_registers_nothing (data : gmap string value) :
  truthy_opt (data !! "tag") = false →
  keeps_subscriptions (_handle_notifier_event py_float data).
Proof.
  intros Htag st. rewrite handler_stages.
  apply (keeps_subscriptions_bind (route py_float data)
           (notify_persistent data;; register_watches data));
    [apply keeps_subscriptions_route|].
  apply keeps_subscriptions_bind; [apply keeps_subscriptions_notify_persistent|].
  unfold register_watches. destruct (data !! "until"); [|by intros ?].
  destruct (data !! "tag") as [tag|]; [|by intros ?].
  simpl in Htag. rewrite Htag. by intros ?.
Qed.


End Watches.

(** *** Clearing *)

Lemma _clear_notifications_run s m h :
  _clear_notifications (VS s) (m, h)
  = (Ok tt,
     (set_watchers (delete (key s) (watchers m)) m,
      match watchers m !! key s with
      | Some r => (Hass.remove r (dispatch_all h (omap clear_call (persons m)))).2
      | None => dispatch_all h (omap clear_call (persons m))
      end)).
Proof.
  unfold _clear_notifications, bind, gets, modify. simpl.
  rewrite clear_loop_run. simpl.
  destruct (watchers m !! key s) as [r|]; [|done].
  unfold try_except, hass_try, Hass.remove. simpl.
  by destruct (Hass.remove_raises _ r).
Qed.

(** X8: Clearing a tag a second time repeats the clear calls and nothing else:
    the registry has no entry for the tag any more, so no unsubscribe
    callable is called again and the subscriptions stay as the first
    clearing left them. *)
Theorem clearing_twice_repeats_calls_only (tag : scalar) (st : St) :
  let st1 := (_clear_notifications (VS tag) st).2 in
  _clear_notifications (VS tag) st1
  = (Ok tt, (st1.1, dispatch_all st1.2 (omap clear_call (persons st1.1))))
  ∧ Hass.subs (dispatch_all st1.2 (omap clear_call (persons st1.1))) = Hass.subs st1.2
  ∧ persons st1.1 = persons st.1.
Proof.
  destruct st as [m h]. intros st1. subst st1.
  rewrite (_clear_notifications_run tag m h). simpl.
  rewrite _clear_notifications_run. simpl.
  rewrite lookup_delete_eq, delete_delete_eq.
  split_and!; [done | apply dispatch_all_subs | done].
Qed.


(** X10: [_handle_mobile_action] clears the top-level [tag] when it is truthy,
    without looking at [action_data]; otherwise it clears the tag found in
    [action_data] when that is a dict with a truthy tag, does nothing when
    [action_data] is absent or has no truthy tag, and raises
    [AttributeError] when [action_data] is anything but a dict. *)
Theorem mobile_action_tag_resolution (data : gmap string value) (st : St) :
  (∀ tag, data !! "tag" = Some tag → truthy tag = true →
     _handle_mobile_action data st = _clear_notifications tag st)
  ∧ (truthy_opt (data !! "tag") = false →
     (data !! "action_data" = None → _handle_mobile_action data st = (Ok tt, st))
     ∧ (∀ d, data !! "action_data" = Some (VDict d) →
          _handle_mobile_action data st
          = match d !! "tag" with
            | Some t => if truthy_scalar t then _clear_notifications (VS t) st
                        else (Ok tt, st)
            | None => (Ok tt, st)
            end)
     ∧ (∀ v, data !! "action_data" = Some v → (∀ d, v ≠ VDict d) →
          _handle_mobile_action data st = (Raise AttributeError, st))).
Proof.
  split.
  - intros tag Htag Ht. unfold _handle_mobile_action. rewrite Htag. simpl.
    rewrite Ht. unfold bind, ret. simpl. by rewrite Ht.
  - intros Hfalse. unfold _handle_mobile_action. rewrite Hfalse. split_and!.
    + by intros ->.
    + intros d ->. unfold bind, ret. simpl.
      destruct (d !! "tag") as [t|]; simpl; [|done]. by destruct (truthy_scalar t).
    + intros v -> Hv. destruct v as [s|l|d]; [done | done | by destruct (Hv d)].
Qed.

(** *** Stopping, again *)

Lemma remove_all_frame rs h :
  Hass.states (remove_all rs h) = Hass.states h
  ∧ Hass.calls (remove_all rs h) = Hass.calls h
  ∧ Hass.tasks (remove_all rs h) = Hass.tasks h.
Proof.
  revert h. induction rs as [|r rs IH]; intros h; [done|].
  simpl. destruct (IH (Hass.remove r h).2) as (-> & -> & ->).
  unfold Hass.remove. by destruct (Hass.remove_raises h r).
Qed.

(** X11: [async_stop] only unsubscribes: the staging queue, the persons and the
    settings of the manager are kept (staged requests are neither
    delivered nor dropped), no service call is made, no task is spawned,
    and a subscription whose handle is neither in [_listeners] nor in the
    registry of watches is left in place. *)
Theorem stop_only_unsubscribes (m : Manager) (h : Hass.t) :
  ∃ h',
    async_stop (m, h) = (Ok tt, (set_watchers ∅ (set_listeners [] m), h'))
    ∧ staged (set_watchers ∅ (set_listeners [] m)) = staged m
    ∧ Hass.states h' = Hass.states h
    ∧ Hass.calls h' = Hass.calls h
    ∧ Hass.tasks h' = Hass.tasks h
    ∧ (∀ r, r ∉ _listeners m → (∀ tag, watchers m !! tag ≠ Some r) →
            Hass.subs h' !! r = Hass.subs h !! r).
Proof.
  destruct (async_stop_returns m h) as [Hrun _].
  eexists. split; [exact Hrun|].
  destruct (remove_all_frame (map_to_list (watchers m)).*2
              (remove_all (_listeners m) h)) as (Hs & Hc & Ht).
  destruct (remove_all_frame (_listeners m) h) as (Hs' & Hc' & Ht').
  split_and!; try done; try congruence.
  intros r Hl Hw. rewrite remove_all_other.
  - by apply remove_all_other.
  - intros ([tag r'] & -> & Hin)%list_elem_of_fmap.
    apply elem_of_map_to_list in Hin. by destruct (Hw tag).
Qed.

(** X12: Stopping twice is stopping once: the second [async_stop] finds both
    lists empty, calls no unsubscribe callable and changes nothing. *)
Theorem stop_is_idempotent (st : St) :
  (async_stop;; async_stop) st = async_stop st.
Proof.
  destruct st as [m h]. unfold bind at 1.
  destruct (async_stop_returns m h) as [-> _].
  destruct (async_stop_returns (set_watchers ∅ (set_listeners [] m))
              (remove_all (map_to_list (watchers m)).*2 (remove_all (_listeners m) h)))
    as [-> _].
  simpl. by rewrite map_to_list_empty.
Qed.

(** *** Deferring several requests *)

Section Deferral.

Variable py_float : string → option pyfloat.



End Deferral.

(** *** Channels *)

Lemma split_slash_Some s a b :
  split_slash s = Some (a, b) → s = a +:+ "/" +:+ b ∧ has_slash a = false.
Proof.
  revert a. induction s as [|c s IH]; intros a; simpl; [done|].
  destruct (Ascii.eqb_spec c "/") as [->|Hc].
  - by intros [= <- <-].
  - destruct (split_slash s) as [[a' b']|]; [|done].
    intros [= <- <-]. destruct (IH a' eq_refl) as [-> Ha]. simpl.
    split; [done|]. by rewrite (proj2 (Ascii.eqb_neq _ _) Hc).
Qed.

Lemma split_slash_None s : split_slash s = None ↔ has_slash s = false.
Proof.
  induction s as [|c s IH]; simpl; [done|].
  destruct (Ascii.eqb c "/"); simpl; [done|].
  destruct (split_slash s) as [[a b]|]; [|tauto].
  split; [done|]. intros Hs. apply IH in Hs. done.
Qed.

(** X14: A channel [svc] without a slash is called as service [svc] of domain
    [notify]; a channel with a slash is cut at its first slash only: the
    part before it (which has no slash, and may be empty) is the domain,
    and all the rest, further slashes included, is the service. *)
Theorem channel_is_cut_at_first_slash (svc : string) :
  (has_slash svc = false → domain_service svc = ("notify", svc))
  ∧ (has_slash svc = true →
     ∃ domain service,
       domain_service svc = (domain, service)
       ∧ svc = domain +:+ "/" +:+ service
       ∧ has_slash domain = false).
Proof.
  unfold domain_service. split.
  - intros Hs. apply split_slash_None in Hs. by rewrite Hs.
  - intros Hs. destruct (split_slash svc) as [[a b]|] eqn:Hsp.
    + exists a, b. split; [done|]. by apply split_slash_Some.
    + apply split_slash_None in Hsp. congruence.
Qed.

(** *** Starting twice *)



(** *** Instances *)

(** Delivery to everybody on the two-person configuration. *)
Lemma send_to_all_reaches_every_channel_witness :
  _build_payload door_request = Ok ∅
  ∧ ∃ h',
      _send_to_all door_request near_and_home = (Ok tt, (near_and_home.1, h'))
      ∧ (Hass.sc_service <$> calls_since 0 h') = ["mobile_app_a"; "mobile_app_b"]
      ∧ length (Hass.calls h') = 2.
Proof.
  assert (_build_payload door_request = Ok ∅) as Hp by (vm_compute; reflexivity).
  split; [exact Hp|].
  destruct (send_to_all_reaches_every_channel door_request ∅
              near_and_home.1 near_and_home.2 Hp) as (h' & Hrun & Hcalls & Hlen).
  exists h'. split; [exact Hrun|]. split.
  - change 0 with (length (Hass.calls near_and_home.2)). rewrite Hcalls.
    vm_compute. reflexivity.
  - exact Hlen.
Defined.


(** [send_to_b] on the two-person configuration reaches b alone. *)
Lemma named_delivery_witness :
  named_request !! "action" = Some (VS (SStr ("send_to_" +:+ "b")))
  ∧ ("b" ∉ ["all"; "present"; "absent"; "nearest"])
  ∧ _handle_notifier_event float_lit named_request near_and_home
    = (for_ [person_b] (_send_to_person named_request);;
       notify_persistent named_request;; register_watches named_request)
        near_and_home.
Proof.
  assert (named_request !! "action" = Some (VS (SStr ("send_to_" +:+ "b")))) as Ha
    by (vm_compute; reflexivity).
  assert ("b" ∉ ["all"; "present"; "absent"; "nearest"]) as Hname.
  { rewrite !not_elem_of_cons. repeat split; try discriminate. apply not_elem_of_nil. }
  split; [exact Ha|]. split; [exact Hname|].
  exact (proj1 (named_delivery float_lit named_request "b" near_and_home Ha Hname)).
Defined.

(** An action given as the number 1. *)
Lemma non_string_action_raises_witness :
  numeric_action_request !! "action" = Some (VS (SInt 1))
  ∧ truthy (VS (SInt 1)) = true
  ∧ _handle_notifier_event float_lit numeric_action_request near_and_home
    = (Raise AttributeError, near_and_home).
Proof.
  assert (numeric_action_request !! "action" = Some (VS (SInt 1))) as Ha
    by (vm_compute; reflexivity).
  split; [exact Ha|]. split; [reflexivity|].
  apply (non_string_action_raises float_lit numeric_action_request (VS (SInt 1))
           near_and_home Ha); [reflexivity | discriminate].
Defined.

(** A watch asked for without a tag: the subscriptions stay as they were. *)
Lemma until_without_tag_registers_nothing_witness :
  truthy_opt (untagged_watch_request !! "tag") = false
  ∧ Hass.subs (_handle_notifier_event float_lit untagged_watch_request running).2.2
    = Hass.subs running.2.
Proof.
  assert (truthy_opt (untagged_watch_request !! "tag") = false) as Htag
    by (vm_compute; reflexivity).
  split; [exact Htag|].
  exact (proj1 (proj2 (proj2
           (until_without_tag_registers_nothing float_lit untagged_watch_request
              Htag running)))).
Defined.



(** An acknowledgement with the tag nested in [action_data]. *)
Lemma mobile_action_tag_resolution_witness :
  truthy_opt (mobile_ack !! "tag") = false
  ∧ mobile_ack !! "action_data" = Some (VDict {[ "tag" := SStr "door" ]})
  ∧ _handle_mobile_action mobile_ack running
    = _clear_notifications (VS (SStr "door")) running.
Proof.
  assert (truthy_opt (mobile_ack !! "tag") = false) as Hno
    by (vm_compute; reflexivity).
  assert (mobile_ack !! "action_data" = Some (VDict {[ "tag" := SStr "door" ]}))
    as Had by (vm_compute; reflexivity).
  split; [exact Hno|]. split; [exact Had|].
  destruct (mobile_action_tag_resolution mobile_ack running) as [_ Hnested].
  destruct (Hnested Hno) as (_ & Hdict & _).
  rewrite (Hdict _ Had). vm_compute. reflexivity.
Defined.

(** Stopping the running manager: the staged request is kept and the
    bus listener under handle 2 stays. *)
Lemma stop_only_unsubscribes_witness :
  (2 ∉ _listeners running.1)
  ∧ (∀ tag, watchers running.1 !! tag ≠ Some 2)
  ∧ ∃ h',
      async_stop running = (Ok tt, (set_watchers ∅ (set_listeners [] running.1), h'))
      ∧ staged (set_watchers ∅ (set_listeners [] running.1)) = [door_request]
      ∧ Hass.calls h' = []
      ∧ Hass.subs h' !! 2 = Some (Hass.BusListener "NOTIFIER" Hass.HNotifierEvent).
Proof.
  assert (2 ∉ _listeners running.1) as Hl.
  { simpl. rewrite not_elem_of_cons. split; [lia | apply not_elem_of_nil]. }
  assert (∀ tag, watchers running.1 !! tag ≠ Some 2) as Hw.
  { intros tag. simpl. destruct (decide (tag = SStr "door")) as [->|Hne].
    - rewrite lookup_singleton_eq. discriminate.
    - rewrite lookup_singleton_ne by done. discriminate. }
  split; [exact Hl|]. split; [exact Hw|].
  destruct (stop_only_unsubscribes running.1 running.2)
    as (h' & Hrun & Hstaged & _ & Hcalls & _ & Hother).
  exists h'. split; [exact Hrun|]. split; [exact Hstaged|]. split; [exact Hcalls|].
  rewrite (Hother 2 Hl Hw). vm_compute. reflexivity.
Defined.


(** The two channels of the sample persons. *)
Lemma channel_is_cut_at_first_slash_witness :
  has_slash "mobile_app_a" = false
  ∧ domain_service "mobile_app_a" = ("notify", "mobile_app_a")
  ∧ has_slash "rest/hooks/b" = true
  ∧ ∃ domain service,
      domain_service "rest/hooks/b" = (domain, service)
      ∧ "rest/hooks/b" = domain +:+ "/" +:+ service
      ∧ has_slash domain = false.
Proof.
  split; [reflexivity|].
  split; [exact (proj1 (channel_is_cut_at_first_slash "mobile_app_a") eq_refl)|].
  split; [reflexivity|].
  exact (proj2 (channel_is_cut_at_first_slash "rest/hooks/b") eq_refl).
Defined.


End Notifier.
